(** * Track reconstruction of [tracker_solver.py]

    A shallow embedding of [solve_track], part 2 of the script (loading,
    splitting by colour, centre estimation, angular sort, midpoints and loop
    closure), together with the pandas / numpy operations it is written with.

    - a float64 cell is a primitive binary64 float ([PrimFloat.float]), NaN
      included: pandas uses NaN both as a number and as its missing value;
    - a [DataFrame] is the list of its rows in file order; every frame and
      series met here carries a [RangeIndex] (the script calls
      [reset_index(drop=True)] before it combines two series), so the index of
      a cell is its position in the list;
    - [np.arctan2] is libm's two-argument arctangent.  It is no code of this
      repository and has no counterpart among the primitive float operations,
      so the solver is parameterised by it;
    - the plotting, animation and export parts of the script consume the
      centreline and are left out. *)

From Stdlib Require Import Floats String List ZArith Lia Bool Arith.
From Stdlib Require Import Permutation Sorted.
From Stdlib Require Uint63.
Import ListNotations.

Local Open Scope float_scope.

(** ** Cells: float64 *)

Module F64.

(** [pd.isna] on a float64 cell. *)
Definition isna (v : float) : bool := is_nan v.

Definition notna (v : float) : bool := negb (isna v).

(** [float(n)] for a row count. *)
Definition of_count (n : nat) : float := of_uint63 (Uint63.of_Z (Z.of_nat n)).

(** float64(pi) and float64(pi/2), the values libm returns on the axes. *)
Definition pi : float := 0x1.921fb54442d18p+1.
Definition half_pi : float := 0x1.921fb54442d18p+0.

End F64.

(** ** Series and frames *)

Module Pandas.

(** A float64 series with a [RangeIndex]. *)
Definition Series := list float.

(** [Series.dropna()]: the cells that are present. *)
Definition dropna (s : Series) : Series := filter F64.notna s.

(** [Series.count()]: the number of cells that are present. *)
Definition count (s : Series) : nat := length (dropna s).

(** The sum of the cells, accumulated from 0. *)
Definition sum (s : Series) : float := fold_left PrimFloat.add s 0.

(** [Series.mean()]: [skipna=True] is the default, so the missing cells are
    left out of the sum and of the count; the mean of no cell is NaN
    ([the_sum / count if count > 0 else np.nan]). *)
Definition mean (s : Series) : float :=
  if Nat.ltb 0 (count s)
  then sum (dropna s) / F64.of_count (count s)
  else nan.

(** [reindex] to [RangeIndex(n)]: positions the series lacks are NaN. *)
Definition reindex (n : nat) (s : Series) : Series :=
  firstn n s ++ repeat nan (n - length s).

Fixpoint zip_with (f : float -> float -> float) (s t : Series) : Series :=
  match s, t with
  | a :: s', b :: t' => f a b :: zip_with f s' t'
  | _, _ => []
  end.

(** [s + t] on two series: both are aligned on the union of their indexes,
    here [RangeIndex(max(len s, len t))], then added cell by cell. *)
Definition series_add (s t : Series) : Series :=
  let n := Nat.max (length s) (length t) in
  zip_with PrimFloat.add (reindex n s) (reindex n t).

(** [s / 2]. *)
Definition series_div (s : Series) (d : float) : Series :=
  map (fun v => v / d) s.

(** Python exceptions.  [IndexError] is the one pandas raises for an
    out-of-bounds positional indexer; [EmptyInputError] and
    [BoundaryMismatchError] are the error names of the specified interface
    of the reconstruction. *)
Inductive exn : Type :=
| IndexError
| EmptyInputError
| BoundaryMismatchError.

(** [s.iloc[[0]]]: a one-cell series, [IndexError] on an empty series. *)
Definition iloc0 (s : Series) : exn + Series :=
  match s with
  | [] => inl IndexError
  | v :: _ => inr [v]
  end.

(** [pd.concat([s, t], ignore_index=True)]. *)
Definition concat (s t : Series) : Series := s ++ t.

Section SortValues.
Context {A : Type} (key : A -> float).

(** Ascending insertion by [key]; the new row goes before the first row
    whose key is not smaller. *)
Fixpoint insert (r : A) (l : list A) : list A :=
  match l with
  | [] => [r]
  | r' :: l' => if key r' <? key r then r' :: insert r l' else r :: r' :: l'
  end.

Definition argsort (l : list A) : list A := fold_right insert [] l.

(** [sort_values(key)] with its defaults [ascending=True],
    [na_position='last']: the rows whose key is a number are sorted
    ascending, the rows whose key is NaN follow in their input order.
    The order pandas gives to rows of equal key is that of its sorting
    kind; here such rows keep their input order. *)
Definition sort_values (l : list A) : list A :=
  argsort (filter (fun r => F64.notna (key r)) l)
  ++ filter (fun r => F64.isna (key r)) l.

(** [key a <= key b], as Python evaluates it. *)
Definition key_le (a b : A) : Prop := (key a <=? key b) = true.
End SortValues.

End Pandas.

Import Pandas.

(** ** The rows of [cones.csv] *)

Record Cone : Type := mkCone { x : float; y : float; color : string }.

Definition DataFrame := list Cone.

(** A row of [blue_cones] / [yellow_cones] once the [angle] column is set. *)
Record AngledCone : Type := mkAngled { cone : Cone; angle : float }.

(** [df[df['color'] == c].copy()] *)
Definition select_color (c : string) (df : DataFrame) : DataFrame :=
  filter (fun row => String.eqb (color row) c) df.

(** The number of rows of one colour in the file. *)
Definition n_color (c : string) (df : DataFrame) : nat :=
  length (select_color c df).

(** [frame['x']], [frame['y']] and [frame['angle']] *)
Definition col_x (l : list AngledCone) : Series := map (fun r => x (cone r)) l.
Definition col_y (l : list AngledCone) : Series := map (fun r => y (cone r)) l.
Definition col_angle (l : list AngledCone) : Series := map angle l.

(** What [solve_track] has computed when it reaches the plotting part. *)
Record Track : Type := mkTrack {
  center_x : float;
  center_y : float;
  blue_sorted : list AngledCone;
  yellow_sorted : list AngledCone;
  mid_x : Series;
  mid_y : Series
}.

(** Step 3, the centre of a loaded frame: [df['x'].mean()] and
    [df['y'].mean()], over the whole frame. *)
Definition center (df : DataFrame) : float * float :=
  (mean (map x df), mean (map y df)).

(** A closed centreline: the midpoints, then a copy of the first one. *)
Definition closed (mid : Series) : Series := mid ++ [nth 0 mid nan].

Inductive outcome : Type :=
| FileNotFound               (* "Error: cones.csv not found!", returns *)
| Raised (e : exn)            (* an exception leaves [solve_track] *)
| Solved (t : Track).

Section Solver.

(** [np.arctan2] *)
Variable arctan2 : float -> float -> float.

Definition get_angle (x y cx cy : float) : float :=
  arctan2 (y - cy) (x - cx).

(** [cones['angle'] = cones.apply(lambda row: get_angle(...), axis=1)];
    a frame without rows gets an empty column. *)
Definition set_angle (cx cy : float) (cones : DataFrame) : list AngledCone :=
  map (fun row => mkAngled row (get_angle (x row) (y row) cx cy)) cones.

(** Steps 4 and 5 for one colour, given the centre. *)
Definition sorted_by_angle (c : string) (cx cy : float) (df : DataFrame)
  : list AngledCone :=
  sort_values angle (set_angle cx cy (select_color c df)).

(** Step 5: midpoints of one coordinate, before the loop is closed. *)
Definition midpoints (b y : Series) : Series :=
  series_div (series_add b y) 2.

(** Closing the loop: [pd.concat([mid, mid.iloc[[0]]], ignore_index=True)]. *)
Definition close_loop (mid : Series) : exn + Series :=
  match iloc0 mid with
  | inl e => inl e
  | inr first => inr (concat mid first)
  end.

(** Steps 2 to 5 on the loaded frame, with the centre [cx], [cy] of step 3. *)
Definition solve_with_center (cx cy : float) (df : DataFrame) : outcome :=
  let blue := sorted_by_angle "blue" cx cy df in
  let yellow := sorted_by_angle "yellow" cx cy df in
  let mx := midpoints (col_x blue) (col_x yellow) in
  let my := midpoints (col_y blue) (col_y yellow) in
  match close_loop mx with
  | inl e => Raised e
  | inr mx' =>
      match close_loop my with
      | inl e => Raised e
      | inr my' => Solved (mkTrack cx cy blue yellow mx' my')
      end
  end.

(** [solve_track()]; [cones_csv] is the parsed file, [None] when it does
    not exist. *)
Definition solve_track (cones_csv : option DataFrame) : outcome :=
  match cones_csv with
  | None => FileNotFound
  | Some df =>
      let center_x := fst (center df) in
      let center_y := snd (center df) in
      solve_with_center center_x center_y df
  end.

End Solver.

(** ** [np.arctan2] where IEEE 754 fixes it

    C11 F.10.1.4 gives the value of [atan2] when an argument is NaN and when
    the point lies on a coordinate axis.  [arctan2_axes] is [np.arctan2] on
    those arguments; it is what the concrete tracks below are run with, all of
    them laid out on the axes through their centre.  Off the axes it answers
    NaN and stands for no value of [np.arctan2]. *)

Definition sign_bit (v : float) : bool :=
  match classify v with
  | NInf | NNormal | NSubn | NZero => true
  | _ => false
  end.

Definition arctan2_axes (y x : float) : float :=
  if F64.isna y || F64.isna x then nan
  else if y =? 0 then
    if sign_bit x
    then (if sign_bit y then - F64.pi else F64.pi)
    else y
  else if x =? 0 then (if y <? 0 then - F64.half_pi else F64.half_pi)
  else nan.

(** ** Concrete tracks *)

(** Four blue cones at radius 10 and four yellow cones at radius 16, on the
    axes, rows interleaved as in a shuffled file. *)
Definition cross_track : DataFrame :=
  [ mkCone 10 0 "blue"; mkCone 0 16 "yellow"; mkCone (-10) 0 "blue";
    mkCone 16 0 "yellow"; mkCone 0 (-10) "blue"; mkCone 0 (-16) "yellow";
    mkCone 0 10 "blue"; mkCone (-16) 0 "yellow" ].

(** Two blue cones and one yellow cone on the line y = 0. *)
Definition two_blue_one_yellow : DataFrame :=
  [ mkCone (-1) 0 "blue"; mkCone 3 0 "yellow"; mkCone 1 0 "blue" ].

(** A file whose first row has no x cell. *)
Definition missing_x_cell : DataFrame :=
  [ mkCone nan 0 "blue"; mkCone 1 0 "blue";
    mkCone 3 0 "yellow"; mkCone 5 0 "yellow" ].

(** A row labelled with a third colour. *)
Definition red_cone : Cone := mkCone 8 0 "red".


(** A file whose single row is the red cone. *)
Definition only_red : DataFrame := [ red_cone ].

(** ** The words of the specification *)

(** The unweighted arithmetic mean of a series: the sum of all its cells over
    their number. *)
Definition arithmetic_mean (s : Series) : float :=
  sum s / F64.of_count (length s).

(** Sortedness: for all [i < j], [angle[i] <= angle[j]]. *)
Definition ascending (l : list AngledCone) : Prop :=
  forall i j a b,
    i < j -> nth_error l i = Some a -> nth_error l j = Some b ->
    (angle a <=? angle b) = true.

(** Sortedness up to the missing angles: whatever stands before an angle
    that is a number is not larger than it.  The angles that are numbers are
    then ascending and the NaN angles come after all of them. *)
Definition ascending_nan_last (l : list AngledCone) : Prop :=
  forall i j a b,
    i < j -> nth_error l i = Some a -> nth_error l j = Some b ->
    F64.notna (angle b) = true ->
    (angle a <=? angle b) = true.



(** ** Part 1: the mock file

    When [cones.csv] does not exist the script writes one: 50 blue rows
    [[x, y, 'blue']] from the arrays [bx], [by], then 50 yellow rows from
    [yx], [yy], shuffled by [sample(frac=1)].  The four arrays come out of
    [np.linspace], [np.random.normal], [np.cos] and [np.sin], each of shape
    (50,); they are taken as given. *)

(** [for x, y in zip(bx, by): data.append([x, y, c])] *)
Definition append_rows (c : string) (xs ys : Series) : DataFrame :=
  map (fun p => mkCone (fst p) (snd p) c) (combine xs ys).

(** [pd.DataFrame(data, columns=['x', 'y', 'color'])], before the shuffle. *)
Definition mock_rows (bx b_y yx yy : Series) : DataFrame :=
  append_rows "blue" bx b_y ++ append_rows "yellow" yx yy.

(** ** Part 3: the animation *)

(** [s.iloc[i]] for one position [i >= 0]; out of bounds is [IndexError]. *)
Definition iloc (s : Series) (i : nat) : exn + float :=
  match nth_error s i with
  | Some v => inr v
  | None => inl IndexError
  end.

(** [update(frame)]: the two one-cell lists handed to [particle.set_data]. *)
Definition update (t : Track) (frame : nat) : exn + (Series * Series) :=
  match iloc (mid_x t) frame with
  | inl e => inl e
  | inr vx =>
      match iloc (mid_y t) frame with
      | inl e => inl e
      | inr vy => inr ([vx], [vy])
      end
  end.

(** [frames=len(mid_x)]: the animation calls [update] on [range(len(mid_x))]. *)
Definition frames (t : Track) : list nat := seq 0 (length (mid_x t)).

(** ** The script and its files *)

(** What a run finds and leaves on disk: [cones.csv], as [pd.read_csv] parses
    it, and [track_animation.mp4], as the particle positions of its frames;
    [None] is a file that does not exist. *)
Record Disk : Type := mkDisk {
  cones_csv : option DataFrame;
  track_animation_mp4 : option (list (exn + Series * Series))
}.

(** Part 1, [if not os.path.exists('cones.csv')]: only then is a file
    written.  [mock] is what this run would write, the mock rows as this
    run's random state draws and shuffles them. *)
Definition create_dummy_data (mock : DataFrame) (d : Disk) : Disk :=
  match cones_csv d with
  | Some _ => d
  | None => mkDisk (Some mock) (track_animation_mp4 d)
  end.




(** ** Exchanging the two colours *)

Definition swap_color (c : string) : string :=
  if String.eqb c "blue" then "yellow"
  else if String.eqb c "yellow" then "blue"
  else c.

(** The file with every blue row relabelled yellow and every yellow row
    relabelled blue. *)
Definition swap_boundaries (df : DataFrame) : DataFrame :=
  map (fun row => mkCone (x row) (y row) (swap_color (color row))) df.

(** The rows of a file that belong to neither boundary. *)
Definition other_rows (df : DataFrame) : DataFrame :=
  filter (fun row => negb (String.eqb (color row) "blue"
                           || String.eqb (color row) "yellow")) df.

(** * Facts about float64 cells *)

Module F64Facts.
Import F64.

Lemma isna_nan : isna nan = true.
Proof. reflexivity. Qed.

Lemma SFcompare_refl (s : spec_float) :
  s <> S754_nan -> SFcompare s s = Some Eq.
Proof.
  destruct s as [sg | sg | | sg m e]; simpl; intros H; try congruence.
  - now destruct sg.
  - rewrite Z.compare_refl.
    change (Pos.compare_cont Eq m m) with (Pos.compare m m).
    rewrite Pos.compare_refl. now destruct sg.
Qed.

(** A cell is missing exactly when it is the NaN of binary64. *)
Lemma isna_spec (v : float) : isna v = true <-> Prim2SF v = S754_nan.
Proof.
  unfold isna, is_nan. rewrite FloatAxioms.eqb_spec. unfold SFeqb. split.
  - intros H. destruct (Prim2SF v) eqn:E; try reflexivity;
      rewrite SFcompare_refl in H by congruence; discriminate.
  - intros ->. reflexivity.
Qed.

Lemma isna_eq (v : float) : isna v = true -> v = nan.
Proof.
  intros H. apply Prim2SF_inj. apply isna_spec in H. now rewrite H.
Qed.

Lemma notna_spec (v : float) : notna v = true <-> Prim2SF v <> S754_nan.
Proof.
  unfold notna. pose proof (isna_spec v) as [H1 H2].
  destruct (isna v); simpl; split; intros H; try congruence.
  - now specialize (H1 eq_refl).
  - intros E. specialize (H2 E). discriminate.
Qed.

(** NaN is absorbing for [+] and for [/]. *)
Lemma add_nan_r (v : float) : v + nan = nan.
Proof.
  apply Prim2SF_inj. rewrite FloatAxioms.add_spec.
  change (Prim2SF nan) with S754_nan.
  unfold SF64add, SFadd. now destruct (Prim2SF v).
Qed.

Lemma add_nan_l (v : float) : nan + v = nan.
Proof.
  apply Prim2SF_inj. rewrite FloatAxioms.add_spec.
  change (Prim2SF nan) with S754_nan. reflexivity.
Qed.

Lemma div_nan_l (d : float) : nan / d = nan.
Proof.
  apply Prim2SF_inj. rewrite FloatAxioms.div_spec.
  change (Prim2SF nan) with S754_nan. reflexivity.
Qed.

(** The comparison of binary64 on the cells that are numbers. *)
Lemma SFcompare_some (s t : spec_float) :
  s <> S754_nan -> t <> S754_nan -> exists c, SFcompare s t = Some c.
Proof.
  destruct s, t; simpl; intros Hs Ht; try congruence; eauto.
Qed.

Lemma SFcompare_antisym (s t : spec_float) (c : comparison) :
  SFcompare s t = Some c -> SFcompare t s = Some (CompOpp c).
Proof.
  destruct s as [sg | sg | | sg m e], t as [tg | tg | | tg n f]; simpl;
    try discriminate;
    intros H; injection H as <-; f_equal;
    try (destruct sg; reflexivity); try (destruct tg; reflexivity);
    try (destruct sg, tg; reflexivity).
  change (Pos.compare_cont Eq m n) with (Pos.compare m n).
  change (Pos.compare_cont Eq n m) with (Pos.compare n m).
  rewrite (Z.compare_antisym e f), (Pos.compare_antisym m n).
  destruct sg, tg; simpl; try reflexivity;
    destruct (e ?= f)%Z; simpl; try reflexivity;
    destruct (m ?= n)%positive; reflexivity.
Qed.

Lemma ltb_false_leb (a b : float) :
  notna a = true -> notna b = true -> (a <? b) = false -> (b <=? a) = true.
Proof.
  rewrite !notna_spec, FloatAxioms.ltb_spec, FloatAxioms.leb_spec. unfold SFltb, SFleb.
  intros Ha Hb H.
  destruct (SFcompare_some _ _ Ha Hb) as [c Hc].
  rewrite Hc in H. rewrite (SFcompare_antisym _ _ _ Hc).
  destruct c; simpl; congruence.
Qed.

Lemma ltb_leb (a b : float) : (a <? b) = true -> (a <=? b) = true.
Proof.
  rewrite FloatAxioms.ltb_spec, FloatAxioms.leb_spec. unfold SFltb, SFleb.
  destruct (SFcompare _ _) as [[]|]; congruence.
Qed.

(** A comparison that answers [True] has two numbers before it. *)
Lemma leb_notna (a b : float) :
  (a <=? b) = true -> notna a = true /\ notna b = true.
Proof.
  rewrite FloatAxioms.leb_spec, !notna_spec. unfold SFleb.
  destruct (Prim2SF a), (Prim2SF b); simpl; try discriminate;
    intros _; split; discriminate.
Qed.

Lemma SFleb_trans (s t u : spec_float) :
  SFleb s t = true -> SFleb t u = true -> SFleb s u = true.
Proof.
  unfold SFleb.
  destruct s as [sg | sg | | sg m e], t as [tg | tg | | tg n f],
    u as [ug | ug | | ug o g]; simpl; try discriminate; try reflexivity;
    try (destruct sg; simpl; try discriminate; try reflexivity);
    try (destruct tg; simpl; try discriminate; try reflexivity);
    try (destruct ug; simpl; try discriminate; try reflexivity).
  all: change (Pos.compare_cont Eq m n) with (Pos.compare m n);
    change (Pos.compare_cont Eq n o) with (Pos.compare n o);
    change (Pos.compare_cont Eq m o) with (Pos.compare m o).
  all: destruct (Z.compare_spec e f), (Z.compare_spec f g),
      (Z.compare_spec e g); try lia; simpl; try discriminate;
      try reflexivity.
  all: destruct (Pos.compare_spec m n), (Pos.compare_spec n o),
      (Pos.compare_spec m o); try lia; simpl; try discriminate;
      try reflexivity.
Qed.

Lemma leb_trans (a b c : float) :
  (a <=? b) = true -> (b <=? c) = true -> (a <=? c) = true.
Proof. rewrite !FloatAxioms.leb_spec. apply SFleb_trans. Qed.

End F64Facts.

(** * Facts about series and frames *)

Module PandasFacts.
Import F64 F64Facts.

(** ** Alignment and cell-wise arithmetic *)

Lemma reindex_length (n : nat) (s : Series) : length (reindex n s) = n.
Proof.
  unfold reindex. rewrite length_app, length_firstn, repeat_length. lia.
Qed.

(** Reindexing keeps the cells a series has and reads NaN where it has
    none. *)
Lemma reindex_nth (n i : nat) (s : Series) :
  i < n -> nth i (reindex n s) nan = nth i s nan.
Proof.
  intros Hi. unfold reindex.
  destruct (Nat.lt_ge_cases i (length s)) as [Hs | Hs].
  - rewrite app_nth1 by (rewrite length_firstn; lia).
    now rewrite nth_firstn, (proj2 (Nat.ltb_lt i n) Hi).
  - rewrite app_nth2 by (rewrite length_firstn; lia).
    rewrite (nth_overflow s) by lia.
    apply nth_repeat.
Qed.

Lemma zip_with_length (f : float -> float -> float) (s t : Series) :
  length (zip_with f s t) = Nat.min (length s) (length t).
Proof.
  revert t. induction s as [| a s IH]; intros [| b t]; simpl; auto.
Qed.

Lemma zip_with_nth (f : float -> float -> float) (s t : Series) (i : nat) :
  i < length s -> i < length t ->
  nth_error (zip_with f s t) i = Some (f (nth i s nan) (nth i t nan)).
Proof.
  revert t i. induction s as [| a s IH]; intros [| b t] [| i]; simpl;
    intros Hs Ht; try lia; auto.
  apply IH; lia.
Qed.

Lemma series_add_length (s t : Series) :
  length (series_add s t) = Nat.max (length s) (length t).
Proof.
  unfold series_add. rewrite zip_with_length, !reindex_length. lia.
Qed.

(** Cell [i] of [s + t] adds the two cells of index [i], NaN standing for
    a cell that one of the series lacks. *)
Lemma series_add_nth (s t : Series) (i : nat) :
  i < Nat.max (length s) (length t) ->
  nth_error (series_add s t) i = Some (nth i s nan + nth i t nan).
Proof.
  intros Hi. unfold series_add.
  rewrite zip_with_nth by (rewrite reindex_length; exact Hi).
  now rewrite !reindex_nth by exact Hi.
Qed.

Lemma series_div_length (s : Series) (d : float) :
  length (series_div s d) = length s.
Proof. apply length_map. Qed.

Lemma series_div_nth (s : Series) (d : float) (i : nat) (v : float) :
  nth_error s i = Some v -> nth_error (series_div s d) i = Some (v / d).
Proof.
  intros H. unfold series_div. now rewrite nth_error_map, H.
Qed.

(** ** [sort_values] *)

Section SortValuesFacts.
Context {A : Type} (key : A -> float).

Local Abbreviation key_le := (Pandas.key_le key).

Lemma insert_perm (r : A) (l : list A) :
  Permutation (insert key r l) (r :: l).
Proof.
  induction l as [| r' l IH]; simpl; auto.
  destruct (key r' <? key r); auto.
  rewrite IH. apply perm_swap.
Qed.

Lemma argsort_perm (l : list A) : Permutation (argsort key l) l.
Proof.
  induction l as [| r l IH]; simpl; auto.
  rewrite insert_perm. now constructor.
Qed.

Lemma filter_split_perm (p : A -> bool) (l : list A) :
  Permutation (filter (fun r => negb (p r)) l ++ filter p l) l.
Proof.
  induction l as [| r l IH]; simpl; auto.
  destruct (p r); simpl.
  - rewrite <- Permutation_middle. now constructor.
  - now constructor.
Qed.

Lemma sort_values_perm (l : list A) : Permutation (sort_values key l) l.
Proof.
  unfold sort_values, notna. rewrite argsort_perm.
  apply (filter_split_perm (fun r => isna (key r))).
Qed.

Lemma sort_values_length (l : list A) :
  length (sort_values key l) = length l.
Proof. apply Permutation_length, sort_values_perm. Qed.

Lemma insert_sorted (r : A) (l : list A) :
  notna (key r) = true ->
  Forall (fun a => notna (key a) = true) l ->
  StronglySorted key_le l ->
  StronglySorted key_le (insert key r l).
Proof.
  intros Hr Hl Hs. induction Hs as [| r' l Hs IH Hall]; simpl.
  - repeat constructor.
  - inversion Hl as [| ? ? Hr' Hl']; subst.
    destruct (key r' <? key r) eqn:E.
    + constructor; [now apply IH |].
      apply (Permutation_Forall (Permutation_sym (insert_perm r l))).
      constructor; [now apply ltb_leb | exact Hall].
    + assert (Hle : key_le r r') by now apply ltb_false_leb.
      constructor; [now constructor |].
      constructor; [exact Hle |].
      revert Hall. apply Forall_impl. intros a Ha.
      exact (leb_trans _ _ _ Hle Ha).
Qed.

Lemma argsort_sorted (l : list A) :
  Forall (fun a => notna (key a) = true) l ->
  StronglySorted key_le (argsort key l).
Proof.
  induction 1 as [| r l Hr Hl IH]; simpl; [constructor |].
  apply insert_sorted; auto.
  apply (Permutation_Forall (Permutation_sym (argsort_perm l))), Hl.
Qed.

Lemma strongly_sorted_nth (l : list A) (i j : nat) (a b : A) :
  StronglySorted key_le l -> i < j ->
  nth_error l i = Some a -> nth_error l j = Some b -> key_le a b.
Proof.
  intros Hs. revert i j. induction Hs as [| r l Hs IH Hall];
    intros i j Hij Hi Hj.
  - now destruct i.
  - destruct j as [| j]; [lia |]. simpl in Hj.
    destruct i as [| i]; simpl in Hi.
    + injection Hi as ->. rewrite Forall_forall in Hall.
      eapply Hall, nth_error_In, Hj.
    + apply (IH i j); auto; lia.
Qed.

(** The sorted frame, cut where the NaN keys begin. *)
Lemma sort_values_numbers_sorted (l : list A) :
  StronglySorted key_le
    (argsort key (filter (fun r => notna (key r)) l)).
Proof.
  apply argsort_sorted, Forall_forall. intros a Ha.
  now apply filter_In in Ha.
Qed.

(** Whatever stands before a row whose key is a number has a key that is
    not larger: the numbers are ascending and no NaN key precedes one. *)
Lemma sort_values_sorted (l : list A) (i j : nat) (a b : A) :
  i < j ->
  nth_error (sort_values key l) i = Some a ->
  nth_error (sort_values key l) j = Some b ->
  notna (key b) = true ->
  key_le a b.
Proof.
  unfold sort_values. intros Hij Hi Hj Hb.
  set (S := argsort key (filter (fun r => notna (key r)) l)) in *.
  set (N := filter (fun r => isna (key r)) l) in *.
  destruct (Nat.lt_ge_cases j (length S)) as [HjS | HjS].
  - rewrite nth_error_app1 in Hi, Hj by lia.
    exact (strongly_sorted_nth S i j a b
             (sort_values_numbers_sorted l) Hij Hi Hj).
  - rewrite nth_error_app2 in Hj by lia.
    apply nth_error_In, filter_In in Hj. destruct Hj as [_ Hna].
    unfold notna in Hb. rewrite Hna in Hb. discriminate.
Qed.
End SortValuesFacts.

End PandasFacts.

(** * Facts about [solve_track] *)

Section SolverFacts.
Import F64 F64Facts PandasFacts.

Variable arctan2 : float -> float -> float.

Lemma sorted_by_angle_cones (c : string) (cx cy : float) (df : DataFrame) :
  Permutation (map cone (sorted_by_angle arctan2 c cx cy df))
              (select_color c df).
Proof.
  unfold sorted_by_angle.
  rewrite (Permutation_map cone (sort_values_perm angle _)).
  unfold set_angle. rewrite map_map. simpl. now rewrite map_id.
Qed.

Lemma sorted_by_angle_length (c : string) (cx cy : float) (df : DataFrame) :
  length (sorted_by_angle arctan2 c cx cy df) = n_color c df.
Proof.
  unfold n_color.
  rewrite <- (Permutation_length (sorted_by_angle_cones c cx cy df)).
  now rewrite length_map.
Qed.

(** Every row of a sorted frame carries the angle [get_angle] gives it
    around the one centre of the solve. *)
Lemma sorted_by_angle_angle (c : string) (cx cy : float) (df : DataFrame)
      (r : AngledCone) :
  In r (sorted_by_angle arctan2 c cx cy df) ->
  angle r = get_angle arctan2 (x (cone r)) (y (cone r)) cx cy
  /\ color (cone r) = c /\ In (cone r) df.
Proof.
  intros H. unfold sorted_by_angle in H.
  apply (Permutation_in _ (sort_values_perm angle _)) in H.
  unfold set_angle in H. apply in_map_iff in H.
  destruct H as [row [<- Hrow]]. simpl.
  apply filter_In in Hrow. destruct Hrow as [Hin Hc].
  apply String.eqb_eq in Hc. auto.
Qed.

Lemma midpoints_length (b y : Series) :
  length (midpoints b y) = Nat.max (length b) (length y).
Proof.
  unfold midpoints. now rewrite series_div_length, series_add_length.
Qed.

Lemma midpoints_nth (b y : Series) (i : nat) :
  i < Nat.max (length b) (length y) ->
  nth_error (midpoints b y) i = Some ((nth i b nan + nth i y nan) / 2).
Proof.
  intros Hi. unfold midpoints.
  apply series_div_nth, series_add_nth, Hi.
Qed.

(** Where both series have a cell the midpoint is their half sum. *)
Lemma midpoints_paired (b y : Series) (i : nat) (vb vy : float) :
  nth_error b i = Some vb -> nth_error y i = Some vy ->
  nth_error (midpoints b y) i = Some ((vb + vy) / 2).
Proof.
  intros Hb Hy.
  assert (i < length b) by (apply nth_error_Some; congruence).
  rewrite midpoints_nth by lia.
  now rewrite (nth_error_nth _ _ _ Hb), (nth_error_nth _ _ _ Hy).
Qed.

(** Where one of the series has no cell the midpoint is NaN. *)
Lemma midpoints_unpaired (b y : Series) (i : nat) :
  Nat.min (length b) (length y) <= i < Nat.max (length b) (length y) ->
  nth_error (midpoints b y) i = Some nan.
Proof.
  intros Hi. rewrite midpoints_nth by lia. f_equal.
  destruct (Nat.le_gt_cases (length b) i) as [Hb | Hb].
  - rewrite (nth_overflow b) by exact Hb.
    now rewrite add_nan_l, div_nan_l.
  - rewrite (nth_overflow y) by lia.
    now rewrite add_nan_r, div_nan_l.
Qed.

Lemma close_loop_empty : close_loop [] = inl IndexError.
Proof. reflexivity. Qed.

Lemma close_loop_cons (mid : Series) :
  0 < length mid -> close_loop mid = inr (mid ++ [nth 0 mid nan]).
Proof. destruct mid; simpl; [lia | reflexivity]. Qed.

Lemma closed_length (mid : Series) : length (closed mid) = S (length mid).
Proof. unfold closed. rewrite length_app. simpl. lia. Qed.

Lemma closed_nth (mid : Series) (i : nat) :
  i < length mid -> nth_error (closed mid) i = nth_error mid i.
Proof. intros Hi. unfold closed. now rewrite nth_error_app1. Qed.

Lemma closed_first_last (mid : Series) :
  0 < length mid ->
  nth_error (closed mid) 0 = nth_error (closed mid) (length mid).
Proof.
  intros H. unfold closed. rewrite nth_error_app1 by exact H.
  rewrite nth_error_app2, Nat.sub_diag by lia.
  destruct mid; simpl in *; [lia | reflexivity].
Qed.

(** [solve_with_center] runs to the end as soon as one of the two colours
    has a row ... *)
Lemma solve_with_center_solved (cx cy : float) (df : DataFrame) :
  0 < Nat.max (n_color "blue" df) (n_color "yellow" df) ->
  let blue := sorted_by_angle arctan2 "blue" cx cy df in
  let yellow := sorted_by_angle arctan2 "yellow" cx cy df in
  solve_with_center arctan2 cx cy df =
  Solved (mkTrack cx cy blue yellow
            (closed (midpoints (col_x blue) (col_x yellow)))
            (closed (midpoints (col_y blue) (col_y yellow)))).
Proof.
  intros Hn blue yellow. unfold solve_with_center. fold blue yellow.
  assert (Hb : length blue = n_color "blue" df)
    by apply sorted_by_angle_length.
  assert (Hy : length yellow = n_color "yellow" df)
    by apply sorted_by_angle_length.
  rewrite !close_loop_cons; [reflexivity | |];
    rewrite midpoints_length; unfold col_x, col_y;
    rewrite !length_map; lia.
Qed.

(** ... and raises [IndexError] at the loop closure when neither has. *)
Lemma solve_with_center_raised (cx cy : float) (df : DataFrame) :
  n_color "blue" df = 0%nat -> n_color "yellow" df = 0%nat ->
  solve_with_center arctan2 cx cy df = Raised IndexError.
Proof.
  intros Hb Hy. unfold solve_with_center.
  pose proof (sorted_by_angle_length "blue" cx cy df) as Lb.
  pose proof (sorted_by_angle_length "yellow" cx cy df) as Ly.
  rewrite Hb in Lb. rewrite Hy in Ly.
  apply length_zero_iff_nil in Lb, Ly. now rewrite Lb, Ly.
Qed.

(** The outcome of a run on a loaded file, by cases on the row counts. *)
Lemma solve_track_cases (df : DataFrame) :
  (n_color "blue" df = 0%nat /\ n_color "yellow" df = 0%nat /\
   solve_track arctan2 (Some df) = Raised IndexError)
  \/
  (0 < Nat.max (n_color "blue" df) (n_color "yellow" df) /\
   let cx := mean (map x df) in
   let cy := mean (map y df) in
   let blue := sorted_by_angle arctan2 "blue" cx cy df in
   let yellow := sorted_by_angle arctan2 "yellow" cx cy df in
   solve_track arctan2 (Some df) =
   Solved (mkTrack cx cy blue yellow
             (closed (midpoints (col_x blue) (col_x yellow)))
             (closed (midpoints (col_y blue) (col_y yellow))))).
Proof.
  destruct (Nat.eq_dec (Nat.max (n_color "blue" df) (n_color "yellow" df)) 0%nat)
    as [E | E].
  - left. repeat split; try lia.
    simpl. apply solve_with_center_raised; lia.
  - right. split; [lia |]. simpl.
    apply solve_with_center_solved. lia.
Qed.

End SolverFacts.

(** ** The track a finished run has computed *)

Section TrackFacts.
Import F64 F64Facts PandasFacts.

Variable arctan2 : float -> float -> float.
Variables (df : DataFrame) (t : Track).
Hypothesis run : solve_track arctan2 (Some df) = Solved t.

Lemma solved_some_cone :
  0 < Nat.max (n_color "blue" df) (n_color "yellow" df).
Proof.
  destruct (solve_track_cases arctan2 df) as [[_ [_ E]] | [H _]];
    [congruence | exact H].
Qed.

Lemma solved_track :
  t = mkTrack (mean (map x df)) (mean (map y df))
        (sorted_by_angle arctan2 "blue" (center_x t) (center_y t) df)
        (sorted_by_angle arctan2 "yellow" (center_x t) (center_y t) df)
        (closed (midpoints (col_x (blue_sorted t)) (col_x (yellow_sorted t))))
        (closed (midpoints (col_y (blue_sorted t)) (col_y (yellow_sorted t)))).
Proof.
  destruct (solve_track_cases arctan2 df) as [[_ [_ E]] | [_ E]];
    [congruence |].
  cbv zeta in E. rewrite E in run. injection run as <-. reflexivity.
Qed.

Lemma solved_blue_length : length (blue_sorted t) = n_color "blue" df.
Proof. rewrite solved_track. simpl. apply sorted_by_angle_length. Qed.

Lemma solved_yellow_length : length (yellow_sorted t) = n_color "yellow" df.
Proof. rewrite solved_track. simpl. apply sorted_by_angle_length. Qed.

Lemma solved_mid_x :
  mid_x t = closed (midpoints (col_x (blue_sorted t)) (col_x (yellow_sorted t))).
Proof. now rewrite solved_track at 1. Qed.

Lemma solved_mid_y :
  mid_y t = closed (midpoints (col_y (blue_sorted t)) (col_y (yellow_sorted t))).
Proof. now rewrite solved_track at 1. Qed.

Lemma solved_mid_length :
  length (mid_x t) = S (Nat.max (n_color "blue" df) (n_color "yellow" df))
  /\ length (mid_y t) = S (Nat.max (n_color "blue" df) (n_color "yellow" df)).
Proof.
  rewrite solved_mid_x, solved_mid_y, !closed_length, !midpoints_length.
  unfold col_x, col_y.
  now rewrite !length_map, solved_blue_length, solved_yellow_length.
Qed.

(** Rank [i] of the centreline, where both boundaries have a cone. *)
Lemma solved_mid_paired (i : nat) (a b : AngledCone) :
  nth_error (blue_sorted t) i = Some a ->
  nth_error (yellow_sorted t) i = Some b ->
  nth_error (mid_x t) i = Some ((x (cone a) + x (cone b)) / 2)
  /\ nth_error (mid_y t) i = Some ((y (cone a) + y (cone b)) / 2).
Proof.
  intros Ha Hb.
  assert (Hi : i < length (blue_sorted t))
    by (apply nth_error_Some; congruence).
  rewrite solved_mid_x, solved_mid_y.
  rewrite !closed_nth
    by (rewrite midpoints_length; unfold col_x, col_y;
        rewrite !length_map; lia).
  split; apply midpoints_paired; unfold col_x, col_y;
    rewrite nth_error_map; (rewrite Ha || rewrite Hb); reflexivity.
Qed.

(** Rank [i] of the centreline, where only the longer boundary has a
    cone. *)
Lemma solved_mid_unpaired (i : nat) :
  Nat.min (n_color "blue" df) (n_color "yellow" df) <= i
    < Nat.max (n_color "blue" df) (n_color "yellow" df) ->
  nth_error (mid_x t) i = Some nan /\ nth_error (mid_y t) i = Some nan.
Proof.
  rewrite <- solved_blue_length, <- solved_yellow_length. intros Hi.
  rewrite solved_mid_x, solved_mid_y.
  rewrite !closed_nth
    by (rewrite midpoints_length; unfold col_x, col_y;
        rewrite !length_map; lia).
  split; apply midpoints_unpaired; unfold col_x, col_y;
    rewrite !length_map; exact Hi.
Qed.

(** The last point of the centreline is its first point. *)
Lemma solved_mid_closed :
  nth_error (mid_x t) (Nat.max (n_color "blue" df) (n_color "yellow" df))
    = nth_error (mid_x t) 0
  /\ nth_error (mid_y t) (Nat.max (n_color "blue" df) (n_color "yellow" df))
    = nth_error (mid_y t) 0.
Proof.
  pose proof solved_some_cone as Hn.
  rewrite <- solved_blue_length, <- solved_yellow_length in *.
  rewrite solved_mid_x, solved_mid_y.
  set (mx := midpoints (col_x _) (col_x _)).
  set (my := midpoints (col_y _) (col_y _)).
  assert (Lx : length mx = Nat.max (length (blue_sorted t))
                                   (length (yellow_sorted t)))
    by (unfold mx; rewrite midpoints_length; unfold col_x;
        now rewrite !length_map).
  assert (Ly : length my = Nat.max (length (blue_sorted t))
                                   (length (yellow_sorted t)))
    by (unfold my; rewrite midpoints_length; unfold col_y;
        now rewrite !length_map).
  rewrite <- Lx at 1. rewrite <- Ly.
  split; symmetry; apply closed_first_last; lia.
Qed.

(** No cone of either colour is lost or repeated by the sort. *)
Lemma solved_blue_cones :
  Permutation (map cone (blue_sorted t)) (select_color "blue" df).
Proof. rewrite solved_track. simpl. apply sorted_by_angle_cones. Qed.

Lemma solved_yellow_cones :
  Permutation (map cone (yellow_sorted t)) (select_color "yellow" df).
Proof. rewrite solved_track. simpl. apply sorted_by_angle_cones. Qed.

End TrackFacts.

(** * The claims of the specification *)

(** ** Boundaries of different sizes *)




(** Claim C9: with [m < n] cones in the two colours, the midpoints are taken
    over the union of the two index ranges: the run raises nothing, the
    centreline has [max(m, n) + 1] entries, every entry of rank [m <= i < n]
    is NaN in both coordinates, and the sorted boundaries still hold every
    cone of their colour. *)
Theorem mismatch_tail_is_nan
        (arctan2 : float -> float -> float) (df : DataFrame) :
  let m := Nat.min (n_color "blue" df) (n_color "yellow" df) in
  let n := Nat.max (n_color "blue" df) (n_color "yellow" df) in
  m < n ->
  exists t,
    solve_track arctan2 (Some df) = Solved t
    /\ length (mid_x t) = S n /\ length (mid_y t) = S n
    /\ (forall i, m <= i < n ->
        nth_error (mid_x t) i = Some nan /\ nth_error (mid_y t) i = Some nan)
    /\ Permutation (map cone (blue_sorted t)) (select_color "blue" df)
    /\ Permutation (map cone (yellow_sorted t)) (select_color "yellow" df).
Proof.
  intros m n Hmn.
  destruct (solve_track_cases arctan2 df) as [[Hb [Hy _]] | [_ E]];
    [subst m n; lia |].
  cbv zeta in E. eexists. split; [exact E |].
  pose proof (solved_mid_length arctan2 df _ E) as [Lx Ly].
  repeat split; try assumption.
  - now apply (solved_mid_unpaired arctan2 df _ E).
  - now apply (solved_mid_unpaired arctan2 df _ E).
  - apply (solved_blue_cones arctan2 df _ E).
  - apply (solved_yellow_cones arctan2 df _ E).
Qed.

Lemma mismatch_tail_is_nan_witness :
  Nat.min (n_color "blue" two_blue_one_yellow)
          (n_color "yellow" two_blue_one_yellow)
  < Nat.max (n_color "blue" two_blue_one_yellow)
            (n_color "yellow" two_blue_one_yellow)
  /\ exists t,
      solve_track arctan2_axes (Some two_blue_one_yellow) = Solved t
      /\ nth_error (mid_x t) 1 = Some nan
      /\ nth_error (mid_y t) 1 = Some nan.
Proof.
  assert (H : Nat.min (n_color "blue" two_blue_one_yellow)
                      (n_color "yellow" two_blue_one_yellow)
              < Nat.max (n_color "blue" two_blue_one_yellow)
                        (n_color "yellow" two_blue_one_yellow))
    by (vm_compute; lia).
  split; [exact H |].
  destruct (mismatch_tail_is_nan arctan2_axes _ H)
    as [t [R [_ [_ [T _]]]]].
  exists t. split; [exact R |].
  apply (T 1%nat). vm_compute. lia.
Defined.

(** ** The empty input *)

(** No run of [solve_track] ends in [EmptyInputError]: the only exception
    the embedded steps raise is the [IndexError] of the loop closure. *)
Lemma solve_track_raises_only_index_error
      (arctan2 : float -> float -> float) (csv : option DataFrame) (e : exn) :
  solve_track arctan2 csv = Raised e -> e = IndexError.
Proof.
  destruct csv as [df |]; [| discriminate].
  destruct (solve_track_cases arctan2 df) as [[_ [_ E]] | [_ E]];
    cbv zeta in E; rewrite E; congruence.
Qed.

(** Claim C2, as stated, fails: on the file without rows the run does not
    end in [EmptyInputError]. *)
Lemma empty_input_error_is_not_raised :
  solve_track arctan2_axes (Some []) <> Raised EmptyInputError.
Proof. vm_compute. discriminate. Qed.

(** Claim C2, amended: on the empty input the run fails and produces no
    centreline; what it raises is the [IndexError] of [mid_x.iloc[[0]]] on the
    empty series of midpoints, no check of the input being made before. *)
Theorem empty_input_raises_index_error (arctan2 : float -> float -> float) :
  solve_track arctan2 (Some []) = Raised IndexError
  /\ forall t, solve_track arctan2 (Some []) <> Solved t.
Proof.
  assert (E : solve_track arctan2 (Some []) = Raised IndexError)
    by reflexivity.
  split; [exact E | intros t; rewrite E; discriminate].
Qed.

(** ** Boundaries of equal size *)

(** Claim C4, as stated, fails for [N = 0]: a file that has rows but none of
    the two colours gives two boundaries of equal length 0, and the run
    raises [IndexError] instead of producing a centreline of one point. *)
Lemma no_cone_no_centerline :
  n_color "blue" only_red = n_color "yellow" only_red
  /\ solve_track arctan2_axes (Some only_red) = Raised IndexError.
Proof. split; reflexivity. Qed.

(** Claim C4, amended: for two boundaries of [N >= 1] cones each, the
    centreline has exactly [N + 1] points; point [i < N] is the midpoint
    [((a_i.x + b_i.x) / 2, (a_i.y + b_i.y) / 2)] of the cones of rank [i] of
    the two sorted boundaries, and point [N] is identical to point [0]. *)
Theorem equal_boundaries_closed_midpoints
        (arctan2 : float -> float -> float) (df : DataFrame) (N : nat) :
  n_color "blue" df = N -> n_color "yellow" df = N -> 0 < N ->
  exists t,
    solve_track arctan2 (Some df) = Solved t
    /\ length (mid_x t) = S N /\ length (mid_y t) = S N
    /\ (forall i, i < N ->
        exists a b,
          nth_error (blue_sorted t) i = Some a
          /\ nth_error (yellow_sorted t) i = Some b
          /\ nth_error (mid_x t) i = Some ((x (cone a) + x (cone b)) / 2)
          /\ nth_error (mid_y t) i = Some ((y (cone a) + y (cone b)) / 2))
    /\ nth_error (mid_x t) N = nth_error (mid_x t) 0
    /\ nth_error (mid_y t) N = nth_error (mid_y t) 0.
Proof.
  intros Hb Hy HN.
  destruct (solve_track_cases arctan2 df) as [[Hb0 _] | [_ E]]; [lia |].
  cbv zeta in E.
  match type of E with _ = Solved ?r => remember r as t eqn:Et end.
  clear Et. exists t. split; [exact E |].
  pose proof (solved_mid_length arctan2 df t E) as [Lx Ly].
  pose proof (solved_mid_closed arctan2 df t E) as [Cx Cy].
  pose proof (solved_blue_length arctan2 df t E) as Lb.
  pose proof (solved_yellow_length arctan2 df t E) as Lyw.
  rewrite Hb, Hy, Nat.max_id in *.
  repeat split; try assumption.
  intros i Hi.
  destruct (nth_error (blue_sorted t) i) as [a |] eqn:Ea;
    [| apply nth_error_None in Ea; lia].
  destruct (nth_error (yellow_sorted t) i) as [b |] eqn:Eb;
    [| apply nth_error_None in Eb; lia].
  exists a, b. repeat split;
    now apply (solved_mid_paired arctan2 df t E i a b).
Qed.

Lemma equal_boundaries_closed_midpoints_witness :
  n_color "blue" cross_track = 4%nat
  /\ n_color "yellow" cross_track = 4%nat
  /\ exists t,
      solve_track arctan2_axes (Some cross_track) = Solved t
      /\ length (mid_x t) = 5%nat
      /\ nth_error (mid_x t) 4 = nth_error (mid_x t) 0.
Proof.
  split; [reflexivity |]. split; [reflexivity |].
  destruct (equal_boundaries_closed_midpoints arctan2_axes cross_track 4)
    as [t [R [Lx [_ [_ [Cx _]]]]]]; try reflexivity; try lia.
  exists t. repeat split; assumption.
Defined.

(** ** The centre *)

Lemma dropna_all_present (s : Series) :
  Forall (fun v => F64.notna v = true) s -> dropna s = s.
Proof.
  induction 1 as [| v s Hv _ IH]; simpl; [reflexivity |].
  unfold dropna in *. simpl. now rewrite Hv, IH.
Qed.

Lemma mean_is_mean_of_present (s : Series) :
  mean s = if Nat.ltb 0 (count s) then arithmetic_mean (dropna s) else nan.
Proof. reflexivity. Qed.

Lemma n_color_le_length (c : string) (df : DataFrame) :
  n_color c df <= length df.
Proof. apply filter_length_le. Qed.

(** Claim C5, as stated, fails on a file with a missing cell: the centre of
    [missing_x_cell] has [x = 3], the mean of the three x cells that are
    present, while the arithmetic mean of the x cells of all four rows is
    NaN. *)
Lemma missing_cell_is_left_out_of_the_mean :
  missing_x_cell <> []
  /\ (exists t,
        solve_track arctan2_axes (Some missing_x_cell) = Solved t
        /\ center_x t = 3)
  /\ fst (center missing_x_cell) = 3
  /\ fst (center missing_x_cell) <> arithmetic_mean (map x missing_x_cell).
Proof.
  split; [discriminate |].
  split; [eexists; split; [vm_compute; reflexivity | reflexivity] |].
  split; [reflexivity |].
  intros E. apply (f_equal is_nan) in E. vm_compute in E. discriminate E.
Qed.

(** Claim C5, amended: for every non-empty input the centre is computed from
    the rows of all colours together and from nothing but their coordinates:
    each of its coordinates is the arithmetic mean of the cells of that column
    that are present (NaN cells are left out of the sum and of the count; NaN
    when none is present).  When no cell of a column is missing this is the
    arithmetic mean over all input points.  A finished solve holds this one
    centre, and every angle of it is taken around it. *)
Theorem center_is_mean_of_present_cells (df : DataFrame) :
  df <> [] ->
  fst (center df) = (if Nat.ltb 0 (count (map x df))
                     then arithmetic_mean (dropna (map x df)) else nan)
  /\ snd (center df) = (if Nat.ltb 0 (count (map y df))
                        then arithmetic_mean (dropna (map y df)) else nan)
  /\ (Forall (fun v => F64.notna v = true) (map x df) ->
      fst (center df) = arithmetic_mean (map x df))
  /\ (Forall (fun v => F64.notna v = true) (map y df) ->
      snd (center df) = arithmetic_mean (map y df))
  /\ (forall df',
        map x df' = map x df -> map y df' = map y df ->
        center df' = center df)
  /\ (forall arctan2 t,
        solve_track arctan2 (Some df) = Solved t ->
        (center_x t, center_y t) = center df
        /\ forall r, In r (blue_sorted t ++ yellow_sorted t) ->
             angle r = get_angle arctan2 (x (cone r)) (y (cone r))
                         (center_x t) (center_y t)).
Proof.
  intros Hne.
  assert (Hrows : 0 < length df) by (destruct df; simpl; [congruence | lia]).
  assert (Hall : forall s : Series,
             0 < length s -> Forall (fun v => F64.notna v = true) s ->
             mean s = arithmetic_mean s).
  { intros s Hs Hp. rewrite mean_is_mean_of_present.
    unfold count. rewrite (dropna_all_present s Hp).
    now rewrite (proj2 (Nat.ltb_lt _ _) Hs). }
  unfold center. simpl.
  split; [| split; [| split; [| split; [| split]]]].
  - apply mean_is_mean_of_present.
  - apply mean_is_mean_of_present.
  - intros Hp. apply Hall; [now rewrite length_map | exact Hp].
  - intros Hp. apply Hall; [now rewrite length_map | exact Hp].
  - intros df' Ex Ey. now rewrite Ex, Ey.
  - intros arctan2 t R.
    pose proof (solved_track arctan2 df t R) as Et.
    split; [now rewrite Et |].
    intros r Hr. apply in_app_or in Hr.
    rewrite Et in Hr. simpl in Hr.
    destruct Hr as [Hr | Hr]; now apply sorted_by_angle_angle in Hr.
Qed.

Lemma center_is_mean_of_present_cells_witness :
  cross_track <> []
  /\ fst (center cross_track) = arithmetic_mean (map x cross_track)
  /\ snd (center cross_track) = arithmetic_mean (map y cross_track).
Proof.
  assert (H : cross_track <> []) by discriminate.
  split; [exact H |].
  destruct (center_is_mean_of_present_cells cross_track H)
    as [_ [_ [Hx [Hy _]]]].
  split; [apply Hx | apply Hy]; repeat constructor.
Defined.

(** ** The ordered boundaries *)

(** Claim C7, as stated, fails on a file with a missing cell: the blue cone
    without an x cell gets a NaN angle, [sort_values] puts it last, and
    [angle[0] <= angle[1]] does not hold of [pi] and NaN. *)
Lemma nan_angle_is_not_ascending :
  exists t,
    solve_track arctan2_axes (Some missing_x_cell) = Solved t
    /\ col_angle (blue_sorted t) = [F64.pi; nan]
    /\ ~ ascending (blue_sorted t).
Proof.
  eexists. split; [vm_compute; reflexivity |].
  split; [reflexivity |].
  intros H.
  specialize (H 0%nat 1%nat _ _ (Nat.lt_0_succ 0) eq_refl eq_refl).
  vm_compute in H. discriminate H.
Qed.

(** Claim C7, amended: each ordered boundary is a permutation of the input
    points of its colour, so it has as many points as the input has of that
    colour, none dropped or duplicated; it is sorted ascending by angle over
    the points whose angle is a number (for all [i < j] with [angle[j]] not
    NaN, [angle[i] <= angle[j]]), the points whose angle is NaN coming
    last.  The two boundaries of a finished solve are these, for [blue] and
    [yellow], around its centre. *)
Theorem ordered_boundary_is_sorted_permutation
        (arctan2 : float -> float -> float) (df : DataFrame) :
  (forall c cx cy,
      let boundary := sorted_by_angle arctan2 c cx cy df in
      Permutation (map cone boundary) (select_color c df)
      /\ length boundary = n_color c df
      /\ ascending_nan_last boundary)
  /\ (forall t,
        solve_track arctan2 (Some df) = Solved t ->
        blue_sorted t
        = sorted_by_angle arctan2 "blue" (center_x t) (center_y t) df
        /\ yellow_sorted t
           = sorted_by_angle arctan2 "yellow" (center_x t) (center_y t) df).
Proof.
  split.
  - intros c cx cy boundary. split; [| split].
    + apply sorted_by_angle_cones.
    + apply sorted_by_angle_length.
    + intros i j a b. apply PandasFacts.sort_values_sorted.
  - intros t R. pose proof (solved_track arctan2 df t R) as Et.
    split; rewrite Et at 1; reflexivity.
Qed.

Lemma ordered_boundary_is_sorted_permutation_witness :
  exists t,
    solve_track arctan2_axes (Some cross_track) = Solved t
    /\ length (blue_sorted t) = 4%nat
    /\ ascending_nan_last (blue_sorted t)
    /\ col_angle (blue_sorted t) = [- F64.half_pi; 0; F64.half_pi; F64.pi].
Proof.
  eexists. split; [vm_compute; reflexivity |].
  destruct (ordered_boundary_is_sorted_permutation arctan2_axes cross_track)
    as [B _].
  destruct (B "blue"%string 0 0) as [_ [L S]].
  split; [exact L |]. split; [exact S | reflexivity].
Defined.

(** When no angle of a boundary is NaN the ordering is the plain one. *)
Lemma ascending_nan_last_all_numbers (l : list AngledCone) :
  Forall (fun r => F64.notna (angle r) = true) l ->
  ascending_nan_last l -> ascending l.
Proof.
  intros Hn Hs i j a b Hij Hi Hj.
  apply (Hs i j a b Hij Hi Hj).
  rewrite Forall_forall in Hn. eapply Hn, nth_error_In, Hj.
Qed.

(** In a frame sorted this way nothing but NaN angles follows a NaN
    angle. *)
Lemma nan_angles_come_last (l : list AngledCone) (i j : nat)
      (a b : AngledCone) :
  ascending_nan_last l -> i < j ->
  nth_error l i = Some a -> nth_error l j = Some b ->
  F64.isna (angle a) = true -> F64.isna (angle b) = true.
Proof.
  intros Hs Hij Hi Hj Ha.
  destruct (F64.isna (angle b)) eqn:Eb; [reflexivity |].
  assert (Hb : F64.notna (angle b) = true) by (unfold F64.notna; now rewrite Eb).
  destruct (F64Facts.leb_notna _ _ (Hs i j a b Hij Hi Hj Hb)) as [Hna _].
  unfold F64.notna in Hna. rewrite Ha in Hna. discriminate Hna.
Qed.

(** ** Determinism *)



(** Once part 1 has run there is a [cones.csv], and running it again, with
    other random draws, writes nothing. *)
Lemma create_dummy_data_once (mock mock' : DataFrame) (d : Disk) :
  create_dummy_data mock' (create_dummy_data mock d)
  = create_dummy_data mock d.
Proof.
  unfold create_dummy_data.
  destruct (cones_csv d) eqn:E; simpl; [now rewrite E | reflexivity].
Qed.



(** ** Rows of another colour *)





(** * Further properties of the script *)

(** ** The outcome of a run *)

(** [solve_track] returns early exactly when the file is missing, raises
    exactly when the file holds no blue and no yellow row, and then it is the
    [IndexError] of the loop closure; in every other case it reaches the
    plotting part. *)
Theorem solve_track_outcome
        (arctan2 : float -> float -> float) (csv : option DataFrame) :
  (solve_track arctan2 csv = FileNotFound <-> csv = None)
  /\ (forall e,
        solve_track arctan2 csv = Raised e <->
        e = IndexError
        /\ exists df, csv = Some df
                      /\ n_color "blue" df = 0%nat
                      /\ n_color "yellow" df = 0%nat)
  /\ ((exists t, solve_track arctan2 csv = Solved t) <->
      exists df, csv = Some df
                 /\ 0 < Nat.max (n_color "blue" df) (n_color "yellow" df)).
Proof.
  destruct csv as [df |].
  - destruct (solve_track_cases arctan2 df) as [[Hb [Hy E]] | [Hn E]];
      cbv zeta in E; rewrite E.
    + split; [split; discriminate |]. split.
      * intros e. split.
        -- intros H. injection H as <-. split; [reflexivity |].
           exists df. auto.
        -- intros [-> _]. reflexivity.
      * split.
        -- intros [t H]. discriminate H.
        -- intros [df' [H Hpos]]. injection H as <-. lia.
    + split; [split; discriminate |]. split.
      * intros e. split.
        -- discriminate.
        -- intros [_ [df' [H [Hb Hy]]]]. injection H as <-. lia.
      * split.
        -- intros _. exists df. auto.
        -- intros _. eexists. reflexivity.
  - simpl. split; [split; reflexivity |]. split.
    + intros e. split; [discriminate |].
      intros [_ [df [H _]]]. discriminate H.
    + split.
      * intros [t H]. discriminate H.
      * intros [df [H _]]. discriminate H.
Qed.

(** ** The shape of every centreline *)

(** Whatever the two row counts are, a finished run leaves a centreline whose
    two coordinate series have the same length, at least two points, and
    whose last point is its first point: the loop is closed also when the
    boundaries differ in size. *)
Theorem centerline_is_closed
        (arctan2 : float -> float -> float) (df : DataFrame) (t : Track) :
  solve_track arctan2 (Some df) = Solved t ->
  length (mid_x t) = length (mid_y t)
  /\ 2 <= length (mid_x t)
  /\ (exists vx vy,
        nth_error (mid_x t) 0 = Some vx
        /\ nth_error (mid_y t) 0 = Some vy
        /\ nth_error (mid_x t) (length (mid_x t) - 1) = Some vx
        /\ nth_error (mid_y t) (length (mid_y t) - 1) = Some vy).
Proof.
  intros R.
  pose proof (solved_mid_length arctan2 df t R) as [Lx Ly].
  pose proof (solved_mid_closed arctan2 df t R) as [Cx Cy].
  pose proof (solved_some_cone arctan2 df t R) as Hn.
  split; [congruence |]. split; [lia |].
  destruct (nth_error (mid_x t) 0) as [vx |] eqn:Ex;
    [| apply nth_error_None in Ex; lia].
  destruct (nth_error (mid_y t) 0) as [vy |] eqn:Ey;
    [| apply nth_error_None in Ey; lia].
  exists vx, vy. rewrite Lx, Ly. simpl. rewrite Nat.sub_0_r.
  auto.
Qed.

Lemma centerline_is_closed_witness :
  exists t,
    solve_track arctan2_axes (Some two_blue_one_yellow) = Solved t
    /\ length (mid_x t) = length (mid_y t)
    /\ 2 <= length (mid_x t).
Proof.
  eexists. split; [vm_compute; reflexivity |].
  match goal with
  | |- length (mid_x ?t) = _ /\ _ =>
      destruct (centerline_is_closed arctan2_axes two_blue_one_yellow t)
        as [L [G _]]; [vm_compute; reflexivity |]
  end.
  split; [exact L | exact G].
Defined.

(** ** A file with cones of one colour only *)

Lemma all_nan_series (s : Series) (n : nat) :
  length s = n -> (forall i, i < n -> nth_error s i = Some nan) ->
  s = repeat nan n.
Proof.
  intros L H. apply nth_error_ext. intros i.
  destruct (Nat.lt_ge_cases i n) as [Hi | Hi].
  - rewrite (H i Hi). symmetry. rewrite nth_error_repeat by exact Hi.
    reflexivity.
  - rewrite (proj2 (nth_error_None s i)) by lia.
    symmetry. apply nth_error_None. rewrite repeat_length. exact Hi.
Qed.

(** When one of the two colours has no row the run still finishes, and its
    centreline is NaN throughout: with [n] cones of the other colour, [n + 1]
    points whose coordinates are all NaN. *)
Theorem single_colour_centerline_is_nan
        (arctan2 : float -> float -> float) (df : DataFrame) (n : nat) :
  Nat.min (n_color "blue" df) (n_color "yellow" df) = 0%nat ->
  Nat.max (n_color "blue" df) (n_color "yellow" df) = n ->
  0 < n ->
  exists t,
    solve_track arctan2 (Some df) = Solved t
    /\ mid_x t = repeat nan (S n)
    /\ mid_y t = repeat nan (S n).
Proof.
  intros Hmin Hmax Hn.
  destruct (solve_track_cases arctan2 df) as [[Hb [Hy _]] | [_ E]]; [lia |].
  cbv zeta in E.
  match type of E with _ = Solved ?r => remember r as t eqn:Et end.
  clear Et. exists t. split; [exact E |].
  pose proof (solved_mid_length arctan2 df t E) as [Lx Ly].
  pose proof (solved_mid_closed arctan2 df t E) as [Cx Cy].
  pose proof (solved_mid_unpaired arctan2 df t E) as U.
  rewrite Hmin, Hmax in *.
  assert (U0 : nth_error (mid_x t) 0 = Some nan
               /\ nth_error (mid_y t) 0 = Some nan) by (apply U; lia).
  split; apply all_nan_series; try assumption; intros i Hi;
    (destruct (Nat.eq_dec i n) as [-> | Hne];
     [ first [rewrite Cx | rewrite Cy]; apply U0
     | apply U; lia ]).
Qed.

Lemma single_colour_centerline_is_nan_witness :
  exists t,
    solve_track arctan2_axes (Some [mkCone 1 0 "blue"; mkCone 3 0 "blue"])
    = Solved t
    /\ mid_x t = [nan; nan; nan] /\ mid_y t = [nan; nan; nan].
Proof.
  destruct (single_colour_centerline_is_nan arctan2_axes
              [mkCone 1 0 "blue"; mkCone 3 0 "blue"] 2)
    as [t [R [Mx My]]]; [reflexivity | reflexivity | lia |].
  exists t. split; [exact R |]. split; [exact Mx | exact My].
Defined.

(** ** The animation *)

(** The animation never reads outside the centreline: it has one frame per
    centreline point, [update] succeeds on each of them and hands the particle
    exactly that point, the last frame puts the particle where the first one
    did, and any later frame number would raise [IndexError]. *)
Theorem animation_stays_on_centerline
        (arctan2 : float -> float -> float) (df : DataFrame) (t : Track) :
  solve_track arctan2 (Some df) = Solved t ->
  length (frames t)
  = S (Nat.max (n_color "blue" df) (n_color "yellow" df))
  /\ (forall frame, In frame (frames t) ->
        exists vx vy,
          nth_error (mid_x t) frame = Some vx
          /\ nth_error (mid_y t) frame = Some vy
          /\ update t frame = inr ([vx], [vy]))
  /\ update t (length (frames t) - 1) = update t 0
  /\ (forall frame, length (frames t) <= frame ->
        update t frame = inl IndexError).
Proof.
  intros R.
  pose proof (solved_mid_length arctan2 df t R) as [Lx Ly].
  pose proof (solved_mid_closed arctan2 df t R) as [Cx Cy].
  unfold frames. rewrite length_seq, Lx.
  split; [reflexivity |]. split; [| split].
  - intros frame Hf. apply in_seq in Hf.
    destruct (nth_error (mid_x t) frame) as [vx |] eqn:Ex;
      [| apply nth_error_None in Ex; lia].
    destruct (nth_error (mid_y t) frame) as [vy |] eqn:Ey;
      [| apply nth_error_None in Ey; lia].
    exists vx, vy. unfold update, iloc. now rewrite Ex, Ey.
  - simpl. rewrite Nat.sub_0_r. unfold update, iloc. now rewrite Cx, Cy.
  - intros frame Hf. unfold update, iloc.
    now rewrite (proj2 (nth_error_None (mid_x t) frame)) by lia.
Qed.

Lemma animation_stays_on_centerline_witness :
  exists t,
    solve_track arctan2_axes (Some cross_track) = Solved t
    /\ frames t = [0; 1; 2; 3; 4]%nat
    /\ update t 4 = update t 0
    /\ update t 5 = inl IndexError.
Proof.
  eexists. split; [vm_compute; reflexivity |].
  match goal with
  | |- frames ?t = _ /\ _ =>
      destruct (animation_stays_on_centerline arctan2_axes cross_track t)
        as [_ [_ [C O]]]; [vm_compute; reflexivity |]
  end.
  split; [reflexivity |]. split; [exact C |].
  apply O. vm_compute. lia.
Defined.

(** ** Exchanging the two colours *)

Lemma SFadd_comm (prec emax : Z) (s t : spec_float) :
  SFadd prec emax s t = SFadd prec emax t s.
Proof.
  destruct s as [sg | sg | | sg m e], t as [tg | tg | | tg n f]; simpl;
    try reflexivity; try (destruct sg, tg; reflexivity).
  now rewrite Z.min_comm, Z.add_comm.
Qed.

Lemma add_comm (a b : float) : a + b = b + a.
Proof.
  apply Prim2SF_inj. rewrite !FloatAxioms.add_spec. apply SFadd_comm.
Qed.

Lemma zip_with_add_comm (s t : Series) :
  zip_with PrimFloat.add s t = zip_with PrimFloat.add t s.
Proof.
  revert t. induction s as [| a s IH]; intros [| b t]; simpl; auto.
  now rewrite add_comm, IH.
Qed.

Lemma series_add_comm (s t : Series) : series_add s t = series_add t s.
Proof.
  unfold series_add. now rewrite Nat.max_comm, zip_with_add_comm.
Qed.

(** The midpoints do not depend on which boundary comes first. *)
Lemma midpoints_comm (s t : Series) : midpoints s t = midpoints t s.
Proof. unfold midpoints. now rewrite series_add_comm. Qed.

Lemma swap_color_blue (c : string) :
  String.eqb (swap_color c) "blue" = String.eqb c "yellow".
Proof.
  unfold swap_color.
  destruct (String.eqb_spec c "blue") as [-> | Hb]; [reflexivity |].
  destruct (String.eqb_spec c "yellow") as [-> | Hy]; [reflexivity |].
  now apply String.eqb_neq.
Qed.

Lemma swap_color_yellow (c : string) :
  String.eqb (swap_color c) "yellow" = String.eqb c "blue".
Proof.
  unfold swap_color.
  destruct (String.eqb_spec c "blue") as [-> | Hb]; [reflexivity |].
  destruct (String.eqb_spec c "yellow") as [-> | Hy]; [reflexivity |].
  now apply String.eqb_neq.
Qed.

Section SwapFacts.
Import F64.

Variable arctan2 : float -> float -> float.

(** A relabelling of the rows that leaves the coordinates alone. *)
Variable relabel : Cone -> Cone.
Hypothesis relabel_x : forall row, x (relabel row) = x row.
Hypothesis relabel_y : forall row, y (relabel row) = y row.

Let relabel_angled (r : AngledCone) : AngledCone :=
  mkAngled (relabel (cone r)) (angle r).

Lemma set_angle_relabel (cx cy : float) (cones : DataFrame) :
  set_angle arctan2 cx cy (map relabel cones)
  = map relabel_angled (set_angle arctan2 cx cy cones).
Proof.
  unfold set_angle. rewrite !map_map. apply map_ext. intros row.
  unfold relabel_angled. simpl. now rewrite relabel_x, relabel_y.
Qed.

Lemma insert_relabel (r : AngledCone) (l : list AngledCone) :
  insert angle (relabel_angled r) (map relabel_angled l)
  = map relabel_angled (insert angle r l).
Proof.
  induction l as [| r' l IH]; simpl; [reflexivity |].
  destruct (angle r' <? angle r); simpl; [now rewrite IH | reflexivity].
Qed.

Lemma filter_relabel (p : float -> bool) (l : list AngledCone) :
  filter (fun r => p (angle r)) (map relabel_angled l)
  = map relabel_angled (filter (fun r => p (angle r)) l).
Proof.
  induction l as [| r l IH]; simpl; [reflexivity |].
  destruct (p (angle r)); simpl; now rewrite IH.
Qed.

(** Sorting looks at the angles only. *)
Lemma sort_values_relabel (l : list AngledCone) :
  sort_values angle (map relabel_angled l)
  = map relabel_angled (sort_values angle l).
Proof.
  unfold sort_values.
  rewrite (filter_relabel notna), (filter_relabel isna), map_app.
  f_equal. unfold argsort.
  induction (filter (fun r => notna (angle r)) l) as [| r l' IH]; simpl;
    [reflexivity |].
  now rewrite IH, insert_relabel.
Qed.

Lemma col_x_relabel (l : list AngledCone) :
  col_x (map relabel_angled l) = col_x l.
Proof.
  unfold col_x. rewrite map_map. apply map_ext. intros r. apply relabel_x.
Qed.

Lemma col_y_relabel (l : list AngledCone) :
  col_y (map relabel_angled l) = col_y l.
Proof.
  unfold col_y. rewrite map_map. apply map_ext. intros r. apply relabel_y.
Qed.

Lemma select_color_relabel (c c' : string) (df : DataFrame) :
  (forall row, String.eqb (color (relabel row)) c = String.eqb (color row) c') ->
  select_color c (map relabel df) = map relabel (select_color c' df).
Proof.
  intros H. unfold select_color.
  induction df as [| row df IH]; simpl; [reflexivity |].
  rewrite H. destruct (String.eqb (color row) c'); simpl; now rewrite IH.
Qed.

Lemma sorted_by_angle_relabel (c c' : string) (cx cy : float)
      (df : DataFrame) :
  (forall row, String.eqb (color (relabel row)) c = String.eqb (color row) c') ->
  sorted_by_angle arctan2 c cx cy (map relabel df)
  = map relabel_angled (sorted_by_angle arctan2 c' cx cy df).
Proof.
  intros H. unfold sorted_by_angle.
  now rewrite (select_color_relabel c c' df H), set_angle_relabel,
    sort_values_relabel.
Qed.

End SwapFacts.

(** The centreline does not depend on which of the two boundaries is called
    blue: relabelling every blue row yellow and every yellow row blue leaves
    the centre, and every point of the centreline, as they were; the two
    sorted boundaries exchange their coordinates. *)
Theorem swapping_colours_keeps_centerline
        (arctan2 : float -> float -> float) (df : DataFrame) (t : Track) :
  solve_track arctan2 (Some df) = Solved t ->
  exists t',
    solve_track arctan2 (Some (swap_boundaries df)) = Solved t'
    /\ center_x t' = center_x t /\ center_y t' = center_y t
    /\ col_x (blue_sorted t') = col_x (yellow_sorted t)
    /\ col_y (blue_sorted t') = col_y (yellow_sorted t)
    /\ col_x (yellow_sorted t') = col_x (blue_sorted t)
    /\ col_y (yellow_sorted t') = col_y (blue_sorted t)
    /\ mid_x t' = mid_x t /\ mid_y t' = mid_y t.
Proof.
  intros R.
  pose proof (solved_some_cone arctan2 df t R) as Hn.
  destruct (solve_track_cases arctan2 df) as [[_ [_ E0]] | [_ E0]];
    [congruence |].
  cbv zeta in E0. rewrite E0 in R. injection R as <-. clear E0.
  set (relabel := fun row => mkCone (x row) (y row) (swap_color (color row))).
  assert (Hx : map x (swap_boundaries df) = map x df)
    by (unfold swap_boundaries; rewrite map_map; now apply map_ext).
  assert (Hy : map y (swap_boundaries df) = map y df)
    by (unfold swap_boundaries; rewrite map_map; now apply map_ext).
  assert (Sb : forall cx cy,
             sorted_by_angle arctan2 "blue" cx cy (swap_boundaries df)
             = map (fun r => mkAngled (relabel (cone r)) (angle r))
                   (sorted_by_angle arctan2 "yellow" cx cy df)).
  { intros cx cy.
    apply (sorted_by_angle_relabel arctan2 relabel); try reflexivity.
    intros row. apply swap_color_blue. }
  assert (Sy : forall cx cy,
             sorted_by_angle arctan2 "yellow" cx cy (swap_boundaries df)
             = map (fun r => mkAngled (relabel (cone r)) (angle r))
                   (sorted_by_angle arctan2 "blue" cx cy df)).
  { intros cx cy.
    apply (sorted_by_angle_relabel arctan2 relabel); try reflexivity.
    intros row. apply swap_color_yellow. }
  assert (Nb : n_color "blue" (swap_boundaries df) = n_color "yellow" df).
  { rewrite <- (sorted_by_angle_length arctan2 "blue" 0 0), Sb, length_map.
    apply sorted_by_angle_length. }
  assert (Ny : n_color "yellow" (swap_boundaries df) = n_color "blue" df).
  { rewrite <- (sorted_by_angle_length arctan2 "yellow" 0 0), Sy, length_map.
    apply sorted_by_angle_length. }
  destruct (solve_track_cases arctan2 (swap_boundaries df))
    as [[Hb0 [Hy0 _]] | [_ E]]; [lia |].
  cbv zeta in E. rewrite Hx, Hy, !Sb, !Sy in E.
  rewrite !(col_x_relabel relabel), !(col_y_relabel relabel) in E
    by reflexivity.
  eexists. split; [exact E |]. simpl.
  rewrite !(col_x_relabel relabel), !(col_y_relabel relabel) by reflexivity.
  rewrite (midpoints_comm (col_x _)), (midpoints_comm (col_y _)).
  repeat split; reflexivity.
Qed.

Lemma swapping_colours_keeps_centerline_witness :
  exists t t',
    solve_track arctan2_axes (Some cross_track) = Solved t
    /\ solve_track arctan2_axes (Some (swap_boundaries cross_track))
       = Solved t'
    /\ mid_x t' = mid_x t /\ mid_y t' = mid_y t.
Proof.
  destruct (solve_track arctan2_axes (Some cross_track)) as [| e | t] eqn:R;
    try (vm_compute in R; discriminate R).
  destruct (swapping_colours_keeps_centerline arctan2_axes cross_track t R)
    as [t' [R' [_ [_ [_ [_ [_ [_ [Mx My]]]]]]]]].
  exists t, t'. repeat split; assumption.
Defined.

(** ** Every row goes to one place *)

Lemma select_color_split (df : DataFrame) :
  Permutation
    (select_color "blue" df ++ select_color "yellow" df ++ other_rows df) df.
Proof.
  unfold select_color, other_rows.
  induction df as [| row df IH]; simpl; [constructor |].
  destruct (String.eqb_spec (color row) "blue") as [Eb | Eb]; simpl.
  - rewrite Eb. simpl. now constructor.
  - destruct (String.eqb_spec (color row) "yellow") as [Ey | Ey]; simpl.
    + rewrite <- Permutation_middle. now constructor.
    + rewrite app_assoc, <- Permutation_middle, <- app_assoc.
      now constructor.
Qed.

Lemma n_color_split (df : DataFrame) :
  (n_color "blue" df + n_color "yellow" df + length (other_rows df)
   = length df)%nat.
Proof.
  pose proof (Permutation_length (select_color_split df)) as P.
  rewrite !length_app in P. unfold n_color. lia.
Qed.

(** The two filters of step 2 never share a row: the blue rows, the yellow
    rows and the rows of any other colour are, together, exactly the rows of
    the file, each once.  So the sizes of the two boundaries add up to the
    number of rows less the rows of other colours. *)
Theorem rows_split_by_colour (df : DataFrame) :
  Permutation
    (select_color "blue" df ++ select_color "yellow" df ++ other_rows df) df
  /\ (n_color "blue" df + n_color "yellow" df + length (other_rows df)
      = length df)%nat
  /\ (forall row, In row (select_color "blue" df) ->
                  ~ In row (select_color "yellow" df)).
Proof.
  split; [apply select_color_split |]. split; [apply n_color_split |].
  intros row Hb Hy. apply filter_In in Hb, Hy.
  destruct Hb as [_ Hb]. destruct Hy as [_ Hy].
  apply String.eqb_eq in Hb, Hy. congruence.
Qed.

(** ** The mock file *)

Lemma n_color_of_colours (c : string) (df : DataFrame) :
  n_color c df = length (filter (fun k => String.eqb k c) (map color df)).
Proof.
  unfold n_color, select_color.
  induction df as [| row df IH]; simpl; [reflexivity |].
  destruct (String.eqb (color row) c); simpl; now rewrite IH.
Qed.

Lemma filter_length_perm {A : Type} (p : A -> bool) (l l' : list A) :
  Permutation l l' -> length (filter p l) = length (filter p l').
Proof.
  induction 1 as [| a l l' _ IH | a b l | l l' l'' _ IH1 _ IH2]; simpl.
  - reflexivity.
  - destruct (p a); simpl; now rewrite IH.
  - destruct (p a), (p b); reflexivity.
  - now rewrite IH1.
Qed.

Lemma n_color_append_rows (c c' : string) (xs ys : Series) :
  n_color c (append_rows c' xs ys)
  = if String.eqb c' c then Nat.min (length xs) (length ys) else 0%nat.
Proof.
  unfold n_color, select_color, append_rows.
  rewrite <- (length_combine xs ys).
  induction (combine xs ys) as [| p l IH]; simpl.
  - now destruct (String.eqb c' c).
  - destruct (String.eqb c' c); simpl; now rewrite IH.
Qed.

Lemma n_color_app (c : string) (df df' : DataFrame) :
  n_color c (df ++ df') = (n_color c df + n_color c df')%nat.
Proof.
  unfold n_color, select_color. now rewrite filter_app, length_app.
Qed.

(** However [sample(frac=1)] orders the rows of the mock file, and whatever
    values the arrays of shape (50,) hold, the file has 100 rows, 50 blue and
    50 yellow and none of another colour; a run on it finishes with a
    centreline of 51 points, each of the first 50 the midpoint of the blue
    and the yellow cone of its rank. *)
Theorem mock_file_has_equal_boundaries
        (arctan2 : float -> float -> float)
        (bx b_y yx yy : Series) (df : DataFrame) :
  length bx = 50%nat -> length b_y = 50%nat ->
  length yx = 50%nat -> length yy = 50%nat ->
  Permutation (map color df) (map color (mock_rows bx b_y yx yy)) ->
  length df = 100%nat
  /\ n_color "blue" df = 50%nat /\ n_color "yellow" df = 50%nat
  /\ other_rows df = []
  /\ exists t,
      solve_track arctan2 (Some df) = Solved t
      /\ length (mid_x t) = 51%nat /\ length (mid_y t) = 51%nat
      /\ forall i, i < 50 ->
           exists a b,
             nth_error (blue_sorted t) i = Some a
             /\ nth_error (yellow_sorted t) i = Some b
             /\ nth_error (mid_x t) i = Some ((x (cone a) + x (cone b)) / 2)
             /\ nth_error (mid_y t) i = Some ((y (cone a) + y (cone b)) / 2).
Proof.
  intros Lbx Lby Lyx Lyy P.
  assert (Nc : forall c, n_color c df = n_color c (mock_rows bx b_y yx yy)).
  { intros c. rewrite !n_color_of_colours. now apply filter_length_perm. }
  assert (Nb : n_color "blue" df = 50%nat).
  { rewrite Nc. unfold mock_rows.
    rewrite n_color_app, !n_color_append_rows, Lbx, Lby. reflexivity. }
  assert (Ny : n_color "yellow" df = 50%nat).
  { rewrite Nc. unfold mock_rows.
    rewrite n_color_app, !n_color_append_rows, Lyx, Lyy. reflexivity. }
  assert (Ln : length df = 100%nat).
  { rewrite <- (length_map color df), (Permutation_length P), length_map.
    unfold mock_rows, append_rows.
    rewrite length_app, !length_map, !length_combine, Lbx, Lby, Lyx, Lyy.
    reflexivity. }
  assert (Ho : other_rows df = []).
  { apply length_zero_iff_nil.
    pose proof (n_color_split df) as S. lia. }
  repeat (split; [assumption |]).
  destruct (solve_track_cases arctan2 df) as [[Hb0 _] | [_ E]]; [lia |].
  cbv zeta in E.
  match type of E with _ = Solved ?r => remember r as t eqn:Et end.
  clear Et. exists t. split; [exact E |].
  pose proof (solved_mid_length arctan2 df t E) as [Lx Ly].
  pose proof (solved_blue_length arctan2 df t E) as Lb.
  pose proof (solved_yellow_length arctan2 df t E) as Lw.
  rewrite Nb, Ny in *. simpl in Lx, Ly.
  repeat (split; [assumption |]).
  intros i Hi.
  destruct (nth_error (blue_sorted t) i) as [a |] eqn:Ea;
    [| apply nth_error_None in Ea; lia].
  destruct (nth_error (yellow_sorted t) i) as [b |] eqn:Eb;
    [| apply nth_error_None in Eb; lia].
  exists a, b. repeat split;
    now apply (solved_mid_paired arctan2 df t E i a b).
Qed.

Lemma mock_file_has_equal_boundaries_witness :
  length (rev (mock_rows (repeat 10 50) (repeat 0 50)
                         (repeat 16 50) (repeat 0 50))) = 100%nat
  /\ exists t,
      solve_track arctan2_axes
        (Some (rev (mock_rows (repeat 10 50) (repeat 0 50)
                              (repeat 16 50) (repeat 0 50))))
      = Solved t
      /\ length (mid_x t) = 51%nat.
Proof.
  destruct (mock_file_has_equal_boundaries arctan2_axes
              (repeat 10 50) (repeat 0 50) (repeat 16 50) (repeat 0 50)
              (rev (mock_rows (repeat 10 50) (repeat 0 50)
                              (repeat 16 50) (repeat 0 50))))
    as [L [_ [_ [_ [t [R [Lx _]]]]]]];
    try apply repeat_length.
  - rewrite map_rev. apply Permutation_sym, Permutation_rev.
  - split; [exact L |]. exists t. split; [exact R | exact Lx].
Defined.
